(** * onecar: [demo.py], a greeter and a running accumulator

    The script defines [hello_world], the class [Calculator] with the
    methods [__init__], [add] and [multiply], and a main block that runs
    one calculator through [add(5)] and [multiply(2)] and prints the result.

    The embedding keeps the script's shape: Python values are a tagged
    union, the two in-place operators [+=] and [*=] follow CPython's
    dispatch on the operand types, instances live in a heap of attribute
    dictionaries, and statements are sequenced in a monad that threads the
    heap and standard output and stops at the first exception. *)

From Stdlib Require Import ZArith String Floats.
From stdpp Require Import gmap strings pretty.

Local Open Scope string_scope.
Local Open Scope Z_scope.

(** ** Python values and the two operators the script applies *)

Module Py.

(** The values a caller can hand to the calculator, as far as this
    development follows them: [None], [bool], [int] (unbounded), [float]
    (IEEE-754 binary64) and [str].  Complex numbers, [Fraction],
    [Decimal] and the mutable containers are outside the model. *)
Inductive pyval : Type :=
| VNone
| VBool (b : bool)
| VInt (z : Z)
| VFloat (x : float)
| VStr (s : string).

Inductive pyexc : Type :=
| TypeError
| OverflowError
| AttributeError.

Inductive result (A : Type) : Type :=
| Ok (a : A)
| Raise (e : pyexc).
Arguments Ok {A} a.
Arguments Raise {A} e.

Definition result_bind {A B} (r : result A) (k : A -> result B) : result B :=
  match r with
  | Ok a => k a
  | Raise e => Raise e
  end.

(** [bool] is a subclass of [int]: [True] counts as 1 and [False] as 0. *)
Definition as_int (v : pyval) : option Z :=
  match v with
  | VBool b => Some (Z.b2z b)
  | VInt z => Some z
  | _ => None
  end.

Definition is_integer (v : pyval) : bool :=
  match v with
  | VBool _ | VInt _ => true
  | _ => false
  end.

Definition is_numeric (v : pyval) : bool :=
  match v with
  | VBool _ | VInt _ | VFloat _ => true
  | _ => false
  end.

(** [int] to [float] when an [int] meets a [float]: rounded to nearest,
    ties to even; an [int] beyond the finite doubles raises
    [OverflowError] ("int too large to convert to float"). *)
Definition float_of_int (z : Z) : result float :=
  let x := SF2Prim (binary_normalize prec emax z 0 false) in
  if is_infinity x then Raise OverflowError else Ok x.

Definition to_float (v : pyval) : option (result float) :=
  match v with
  | VFloat x => Some (Ok x)
  | _ => option_map float_of_int (as_int v)
  end.

(** The numeric slot shared by [+] and [*]: two integers stay integers,
    otherwise both operands are taken as doubles.  [None] stands for
    [NotImplemented] from both operands. *)
Definition arith (zop : Z -> Z -> Z) (fop : float -> float -> float)
    (a b : pyval) : option (result pyval) :=
  match as_int a, as_int b with
  | Some x, Some y => Some (Ok (VInt (zop x y)))
  | _, _ =>
      match to_float a, to_float b with
      | Some ra, Some rb =>
          Some (result_bind ra (fun x =>
                result_bind rb (fun y => Ok (VFloat (fop x y)))))
      | _, _ => None
      end
  end.

(** [sys.maxsize] of a 64-bit CPython. *)
Definition maxsize : Z := 2 ^ 63 - 1.

Fixpoint repeat_string (n : nat) (s : string) : string :=
  match n with
  | O => ""
  | S n' => s ++ repeat_string n' s
  end.

(** [s * k]: the count must fit an index; a count below 1 gives the
    empty string; a result longer than [maxsize] is refused.
    Running out of memory is not modelled. *)
Definition str_repeat (s : string) (k : Z) : result string :=
  if (k <? - maxsize - 1) || (maxsize <? k) then Raise OverflowError
  else if k <? 1 then Ok ""
  else if maxsize / k <? Z.of_nat (String.length s) then Raise OverflowError
  else Ok (repeat_string (Z.to_nat k) s).

(** [a + b] *)
Definition py_add (a b : pyval) : result pyval :=
  match arith Z.add PrimFloat.add a b with
  | Some r => r
  | None =>
      match a, b with
      | VStr s, VStr t => Ok (VStr (s ++ t))
      | _, _ => Raise TypeError
      end
  end.

(** [a * b] *)
Definition py_mul (a b : pyval) : result pyval :=
  match arith Z.mul PrimFloat.mul a b with
  | Some r => r
  | None =>
      match a, as_int b, as_int a, b with
      | VStr s, Some k, _, _ => result_bind (str_repeat s k) (fun r => Ok (VStr r))
      | _, _, Some k, VStr s => result_bind (str_repeat s k) (fun r => Ok (VStr r))
      | _, _, _, _ => Raise TypeError
      end
  end.

(** Python's [==] between a stored value and the integer 0. *)
Definition is_zero_value (v : pyval) : bool :=
  match v with
  | VBool b => negb b
  | VInt z => z =? 0
  | VFloat x => PrimFloat.is_zero x
  | _ => false
  end.

Section Str.
(** [repr] of a [float] (the shortest decimal string that reads back
    as the same double) is left as a parameter. *)
Variable float_repr : float -> string.

(** [str(v)], which is what an f-string field without a format
    specification inserts. *)
Definition py_str (v : pyval) : string :=
  match v with
  | VNone => "None"
  | VBool true => "True"
  | VBool false => "False"
  | VInt z => pretty z
  | VFloat x => float_repr x
  | VStr s => s
  end.
End Str.

End Py.
Import Py.

(** ** The interpreter state and the statement monad *)

Abbreviation loc := positive.
Abbreviation obj := (gmap string pyval).

(** [heap] maps a live instance to its attribute dictionary; [stdout] is
    the text written so far. *)
Record world : Type := World {
  heap : gmap loc obj;
  stdout : string
}.

Definition init_world : world := World ∅ "".

Definition M (A : Type) : Type := world -> result A * world.

Definition ret {A} (a : A) : M A := fun w => (Ok a, w).

Definition raise {A} (e : pyexc) : M A := fun w => (Raise e, w).

Definition lift {A} (r : result A) : M A := fun w => (r, w).

(** Sequencing: an exception skips the rest; what was written before it
    stays written. *)
Definition bind {A B} (m : M A) (k : A -> M B) : M B :=
  fun w =>
    match m w with
    | (Ok a, w') => k a w'
    | (Raise e, w') => (Raise e, w')
    end.

#[global] Instance M_ret : MRet M := @ret.
#[global] Instance M_bind : MBind M := fun A B k m => bind m k.

Definition newline : string := String (Ascii.ascii_of_nat 10) "".

(** [self.<name>] *)
Definition getattr (self : loc) (name : string) : M pyval :=
  fun w =>
    match heap w !! self ≫= (.!! name) with
    | Some v => ret v w
    | None => raise AttributeError w
    end.

(** [self.<name> = v] on a live instance *)
Definition setattr (self : loc) (name : string) (v : pyval) : M unit :=
  fun w => (Ok tt, World (alter (<[name := v]>) self (heap w)) (stdout w)).

(** Allocation of a new, empty instance. *)
Definition alloc : M loc :=
  fun w =>
    let l := fresh (dom (heap w)) in
    (Ok l, World (<[l := ∅]> (heap w)) (stdout w)).

(** [print(s)] *)
Definition print (s : string) : M unit :=
  fun w => (Ok tt, World (heap w) (stdout w ++ s ++ newline)).

(** ** The script *)

Definition hello_world : M pyval :=
  print "Hello World!" ;;
  ret (VStr "success").

Module Calculator.

Definition __init__ (self : loc) : M unit :=
  setattr self "value" (VInt 0).

Definition add (self : loc) (num : pyval) : M pyval :=
  v ← getattr self "value";
  r ← lift (py_add v num);
  setattr self "value" r ;;
  getattr self "value".

Definition multiply (self : loc) (num : pyval) : M pyval :=
  v ← getattr self "value";
  r ← lift (py_mul v num);
  setattr self "value" r ;;
  getattr self "value".

(** The call [Calculator()]. *)
Definition new : M loc :=
  self ← alloc;
  __init__ self ;;
  ret self.

End Calculator.

Definition exit_status {A} (r : result A) : Z :=
  match r with
  | Ok _ => 0
  | Raise _ => 1
  end.

(** A process whose body is [body]: the exit status and the text on
    standard output.  An exception that reaches the top level ends the
    process with status 1. *)
Definition run_process (body : M unit) : Z * string :=
  let '(r, w) := body init_world in
  (exit_status r, stdout w).

Section Script.
Variable float_repr : float -> string.

Definition main : M unit :=
  calc ← Calculator.new;
  Calculator.add calc (VInt 5) ;;
  Calculator.multiply calc (VInt 2) ;;
  v ← getattr calc "value";
  print ("Result: " ++ py_str float_repr v).

(** The module body: the definitions bind names and have no other
    effect; the last statement is guarded by [__name__]. *)
Definition module (name : string) : M unit :=
  if decide (name = "__main__") then main else ret tt.

(** [python demo.py] *)
Definition run_script : Z * string := run_process (module "__main__").
End Script.

(** ** Observations used in the statements *)

Definition value_of (self : loc) (w : world) : option pyval :=
  heap w !! self ≫= (.!! "value").

(** The world after [self.value = v]. *)
Definition set_value (self : loc) (v : pyval) (w : world) : world :=
  World (alter (<[ "value" := v ]>) self (heap w)) (stdout w).

(** The call [m] returns [r] and leaves [r] stored in [self.value]. *)
Definition returns_and_stores (self : loc) (m : M pyval) (w : world)
    (r : pyval) : Prop :=
  m w = (Ok r, set_value self r w) /\ value_of self (set_value self r w) = Some r.

(** The call [m] raises [e] and leaves the world as it was. *)
Definition raises {A} (m : M A) (w : world) (e : pyexc) : Prop :=
  m w = (Raise e, w).

(** What the numeric slot gives on two numeric operands. *)
Definition numeric_result (zf : Z -> Z -> Z) (ff : float -> float -> float)
    (v n : pyval) : result pyval :=
  match as_int v, as_int n with
  | Some a, Some b => Ok (VInt (zf a b))
  | _, _ =>
      match to_float v, to_float n with
      | Some (Ok x), Some (Ok y) => Ok (VFloat (ff x y))
      | _, _ => Raise OverflowError
      end
  end.

(** The call [m] writes nothing but [self.value]: the output, the other
    instances, the other attributes of [self] and the set of live
    instances are as before. *)
Definition touches_only_value (self : loc) (m : M pyval) : Prop :=
  forall w : world,
    let w' := snd (m w) in
    stdout w' = stdout w
    /\ (forall l : loc, l <> self -> heap w' !! l = heap w !! l)
    /\ (forall a : string, a <> "value" ->
          heap w' !! self ≫= (.!! a) = heap w !! self ≫= (.!! a))
    /\ dom (heap w') = dom (heap w)
    /\ (forall o : obj, heap w !! self = Some o -> o !! "value" <> None ->
          dom <$> heap w' !! self = Some (dom o)).

(** The call [m] reads nothing but [self.value]: in two worlds that agree
    on it, the outcome and the value left behind are the same. *)
Definition reads_only_value (self : loc) (m : M pyval) : Prop :=
  forall w1 w2 : world,
    value_of self w1 = value_of self w2 ->
    fst (m w1) = fst (m w2)
    /\ value_of self (snd (m w1)) = value_of self (snd (m w2)).

(** An [int] operand that has no double. *)
Definition int_too_large (v : pyval) : bool :=
  match to_float v with
  | Some (Raise _) => true
  | _ => false
  end.

(** The text split at line ends, as a terminal shows it. *)
Fixpoint lines_from (cur : string) (s : string) : list string :=
  match s with
  | EmptyString => if decide (cur = "") then [] else [cur]
  | String c s' =>
      if decide (c = Ascii.ascii_of_nat 10) then cur :: lines_from "" s'
      else lines_from (cur ++ String c "") s'
  end.

Definition lines (s : string) : list string := lines_from "" s.

(** A caller's sequence of operations on one calculator. *)
Inductive op : Type :=
| Add (n : pyval)
| Multiply (n : pyval).

Definition invoke (self : loc) (o : op) : M pyval :=
  match o with
  | Add n => Calculator.add self n
  | Multiply n => Calculator.multiply self n
  end.

Fixpoint invoke_all (self : loc) (ops : list op) : M unit :=
  match ops with
  | [] => ret tt
  | o :: ops' => invoke self o ;; invoke_all self ops'
  end.

(** The left-to-right fold of [+] and [*] the specification speaks of. *)
Definition apply_op (v : pyval) (o : op) : result pyval :=
  match o with
  | Add n => py_add v n
  | Multiply n => py_mul v n
  end.

Fixpoint fold_ops (v : pyval) (ops : list op) : result pyval :=
  match ops with
  | [] => Ok v
  | o :: ops' => result_bind (apply_op v o) (fun v' => fold_ops v' ops')
  end.

(** The same fold over the integers, for sequences of integer arguments. *)
Inductive zop : Type :=
| ZAdd (n : Z)
| ZMultiply (n : Z).

Definition zapply (acc : Z) (o : zop) : Z :=
  match o with
  | ZAdd n => acc + n
  | ZMultiply n => acc * n
  end.

Definition op_of_zop (o : zop) : op :=
  match o with
  | ZAdd n => Add (VInt n)
  | ZMultiply n => Multiply (VInt n)
  end.

(** Runs of calls with integer arguments. *)
Definition adds (zs : list Z) : list op := map (fun z => Add (VInt z)) zs.

Definition multiplies (zs : list Z) : list op := map (fun z => Multiply (VInt z)) zs.

Definition sum_of (zs : list Z) : Z := fold_right Z.add 0 zs.

Definition product_of (zs : list Z) : Z := fold_right Z.mul 1 zs.

Definition is_float (v : pyval) : bool :=
  match v with
  | VFloat _ => true
  | _ => false
  end.

Definition is_bool (v : pyval) : bool :=
  match v with
  | VBool _ => true
  | _ => false
  end.

Definition is_str (v : pyval) : bool :=
  match v with
  | VStr _ => true
  | _ => false
  end.

Definition arg_of (o : op) : pyval :=
  match o with
  | Add n => n
  | Multiply n => n
  end.

(** [k] calls of [hello_world] in a row. *)
Fixpoint greet_times (k : nat) : M unit :=
  match k with
  | O => ret tt
  | S k' => hello_world ;; greet_times k'
  end.

(** ** How the two methods run *)

Lemma value_of_set_value (self : loc) (r : pyval) (w : world) :
  is_Some (heap w !! self) -> value_of self (set_value self r w) = Some r.
Proof.
  intros [o Ho]. unfold value_of, set_value. simpl.
  rewrite lookup_alter_eq, Ho. simpl. apply lookup_insert_eq.
Qed.

Lemma value_of_is_Some (self : loc) (v : pyval) (w : world) :
  value_of self w = Some v -> is_Some (heap w !! self).
Proof.
  unfold value_of. destruct (heap w !! self); [eauto | discriminate].
Qed.

(** One in-place update, [self.value = f(self.value, num)], followed by
    [return self.value]. *)
Lemma inplace_run (f : pyval -> pyval -> result pyval) (self : loc)
    (num : pyval) (w : world) :
  (v ← getattr self "value";
   r ← lift (f v num);
   setattr self "value" r ;;
   getattr self "value") w =
  match value_of self w with
  | None => (Raise AttributeError, w)
  | Some v =>
      match f v num with
      | Ok r => (Ok r, set_value self r w)
      | Raise e => (Raise e, w)
      end
  end.
Proof.
  unfold mbind, M_bind, bind, getattr, lift, setattr, ret, raise.
  fold (value_of self w).
  destruct (value_of self w) as [v|] eqn:Hv; [| reflexivity].
  destruct (f v num) as [r|e]; [| reflexivity].
  fold (set_value self r w). fold (value_of self (set_value self r w)).
  rewrite value_of_set_value by eauto using value_of_is_Some.
  reflexivity.
Qed.

Lemma add_run (self : loc) (num : pyval) (w : world) :
  Calculator.add self num w =
  match value_of self w with
  | None => (Raise AttributeError, w)
  | Some v =>
      match py_add v num with
      | Ok r => (Ok r, set_value self r w)
      | Raise e => (Raise e, w)
      end
  end.
Proof. apply (inplace_run py_add). Qed.

Lemma multiply_run (self : loc) (num : pyval) (w : world) :
  Calculator.multiply self num w =
  match value_of self w with
  | None => (Raise AttributeError, w)
  | Some v =>
      match py_mul v num with
      | Ok r => (Ok r, set_value self r w)
      | Raise e => (Raise e, w)
      end
  end.
Proof. apply (inplace_run py_mul). Qed.

Lemma invoke_run (self : loc) (o : op) (w : world) :
  invoke self o w =
  match value_of self w with
  | None => (Raise AttributeError, w)
  | Some v =>
      match apply_op v o with
      | Ok r => (Ok r, set_value self r w)
      | Raise e => (Raise e, w)
      end
  end.
Proof. destruct o; [apply add_run | apply multiply_run]. Qed.

(** [Calculator()] in any world: a new instance whose only attribute is
    [value], set to 0. *)
Lemma new_run (w : world) :
  let l := fresh (dom (heap w)) in
  Calculator.new w = (Ok l, World (<[l := {[ "value" := VInt 0 ]}]> (heap w)) (stdout w)).
Proof.
  intros l. unfold Calculator.new, Calculator.__init__, alloc, setattr,
    mbind, M_bind, bind, ret. simpl. fold l.
  rewrite alter_insert_eq, insert_empty. reflexivity.
Qed.

Lemma new_value (w : world) (calc : loc) (w0 : world) :
  Calculator.new w = (Ok calc, w0) -> value_of calc w0 = Some (VInt 0).
Proof.
  rewrite new_run. intros [= <- <-]. unfold value_of. simpl.
  rewrite lookup_insert_eq. reflexivity.
Qed.

(** A run of operations from a state holding [v] agrees with the fold. *)
Lemma invoke_all_fold (self : loc) (ops : list op) :
  forall (w : world) (v : pyval),
    value_of self w = Some v ->
    match fold_ops v ops with
    | Ok v' => exists w', invoke_all self ops w = (Ok tt, w')
                          /\ value_of self w' = Some v'
    | Raise e => exists w', invoke_all self ops w = (Raise e, w')
    end.
Proof.
  induction ops as [| o ops IH]; intros w v Hv; simpl.
  - exists w. split; [reflexivity | exact Hv].
  - unfold mbind, M_bind, bind. rewrite invoke_run, Hv.
    destruct (apply_op v o) as [r|e]; simpl.
    + apply IH. apply value_of_set_value. eauto using value_of_is_Some.
    + exists w. reflexivity.
Qed.

Lemma fold_ops_integers (zs : list zop) :
  forall acc : Z,
    fold_ops (VInt acc) (map op_of_zop zs) = Ok (VInt (fold_left zapply zs acc)).
Proof.
  induction zs as [| [n | n] zs IH]; intros acc; simpl; [reflexivity | | ];
    apply IH.
Qed.

(** The numeric slot on two numeric operands: an integer result for two
    integers, a double otherwise, [OverflowError] when an [int] operand has
    no double. *)
Lemma arith_numeric (zf : Z -> Z -> Z) (ff : float -> float -> float)
    (v n : pyval) :
  is_numeric v = true -> is_numeric n = true ->
  arith zf ff v n = Some (numeric_result zf ff v n).
Proof.
  destruct v, n; try discriminate; intros _ _; unfold arith, numeric_result;
    simpl; try reflexivity.
  all: match goal with
       | |- context [float_of_int ?z] =>
           unfold float_of_int;
           destruct (is_infinity (SF2Prim (binary_normalize prec emax z 0 false)));
           reflexivity
       end.
Qed.

Lemma numeric_result_cases (zf : Z -> Z -> Z) (ff : float -> float -> float)
    (v n : pyval) :
  is_numeric v = true -> is_numeric n = true ->
  if negb (is_integer v && is_integer n) && (int_too_large v || int_too_large n)
  then numeric_result zf ff v n = Raise OverflowError
  else exists r, is_numeric r = true /\ numeric_result zf ff v n = Ok r.
Proof.
  destruct v, n; try discriminate; intros _ _;
    unfold numeric_result, int_too_large; simpl;
    try (eexists; split; [| reflexivity]; reflexivity).
  all: match goal with
       | |- context [float_of_int ?z] =>
           destruct (float_of_int z); simpl;
           try reflexivity; eexists; split; [| reflexivity]; reflexivity
       end.
Qed.

(** The outcome of a call that runs one in-place update. *)
Lemma call_outcome (self : loc) (m : M pyval) (w : world) (v : pyval)
    (res : result pyval) :
  value_of self w = Some v ->
  m w = match res with
        | Ok r => (Ok r, set_value self r w)
        | Raise e => (Raise e, w)
        end ->
  match res with
  | Ok r => returns_and_stores self m w r
  | Raise e => raises m w e
  end.
Proof.
  intros Hv Hm. destruct res as [r|e]; [| exact Hm].
  split; [exact Hm |]. apply value_of_set_value.
  unfold value_of in Hv. destruct (heap w !! self); [eauto | discriminate].
Qed.

Lemma add_numeric (self : loc) (w : world) (v n : pyval) :
  value_of self w = Some v -> is_numeric v = true -> is_numeric n = true ->
  match numeric_result Z.add PrimFloat.add v n with
  | Ok r => returns_and_stores self (Calculator.add self n) w r
  | Raise e => raises (Calculator.add self n) w e
  end.
Proof.
  intros Hv Nv Nn. apply (call_outcome self _ w v); [exact Hv |].
  rewrite add_run, Hv. unfold py_add. rewrite arith_numeric by assumption.
  reflexivity.
Qed.

Lemma multiply_numeric (self : loc) (w : world) (v n : pyval) :
  value_of self w = Some v -> is_numeric v = true -> is_numeric n = true ->
  match numeric_result Z.mul PrimFloat.mul v n with
  | Ok r => returns_and_stores self (Calculator.multiply self n) w r
  | Raise e => raises (Calculator.multiply self n) w e
  end.
Proof.
  intros Hv Nv Nn. apply (call_outcome self _ w v); [exact Hv |].
  rewrite multiply_run, Hv. unfold py_mul. rewrite arith_numeric by assumption.
  reflexivity.
Qed.

Lemma str_repeat_raises (s : string) (k : Z) (e : pyexc) :
  str_repeat s k = Raise e -> e = OverflowError.
Proof.
  unfold str_repeat.
  destruct ((k <? - maxsize - 1) || (maxsize <? k))%bool; [congruence |].
  destruct (k <? 1); [discriminate |].
  destruct (maxsize / k <? Z.of_nat (String.length s)); [congruence | discriminate].
Qed.

(** With no handler around it, a statement that raises ends the sequence
    it stands in. *)
Lemma raises_bind {A B} (m : M A) (k : A -> M B) (w : world) (e : pyexc) :
  raises m w e -> raises (m ≫= k) w e.
Proof.
  unfold raises, mbind, M_bind, bind. intros ->. reflexivity.
Qed.

(** The frame of one assignment to [self.value]. *)
Lemma set_value_frame (self : loc) (r : pyval) (w : world) :
  stdout (set_value self r w) = stdout w
  /\ (forall l : loc, l <> self -> heap (set_value self r w) !! l = heap w !! l)
  /\ (forall a : string, a <> "value" ->
        heap (set_value self r w) !! self ≫= (.!! a) = heap w !! self ≫= (.!! a))
  /\ dom (heap (set_value self r w)) = dom (heap w)
  /\ (forall o : obj, heap w !! self = Some o -> o !! "value" <> None ->
        dom <$> heap (set_value self r w) !! self = Some (dom o)).
Proof.
  unfold set_value; simpl. repeat split.
  - intros l Hl. apply lookup_alter_ne. congruence.
  - intros a Ha. rewrite lookup_alter_eq.
    destruct (heap w !! self) as [o|]; simpl; [| reflexivity].
    apply lookup_insert_ne. congruence.
  - apply dom_alter_L.
  - intros o Ho Hval. rewrite lookup_alter_eq, Ho. simpl. f_equal.
    apply dom_insert_lookup_L. destruct (o !! "value"); [eauto | congruence].
Qed.

Lemma touches_only_value_intro (self : loc) (m : M pyval) :
  (forall w : world,
      snd (m w) = w \/ exists r, snd (m w) = set_value self r w) ->
  touches_only_value self m.
Proof.
  intros H w. destruct (H w) as [-> | [r ->]].
  - repeat split; try reflexivity. intros o -> _. reflexivity.
  - apply set_value_frame.
Qed.

Lemma reads_only_value_intro (self : loc) (m : M pyval)
    (f : pyval -> result pyval) :
  (forall w : world,
      m w = match value_of self w with
            | None => (Raise AttributeError, w)
            | Some v =>
                match f v with
                | Ok r => (Ok r, set_value self r w)
                | Raise e => (Raise e, w)
                end
            end) ->
  reads_only_value self m.
Proof.
  intros H w1 w2 Hv. rewrite (H w1), (H w2), <- Hv.
  destruct (value_of self w1) as [v|] eqn:E1; simpl; [| split; congruence].
  destruct (f v) as [r|e]; simpl; [| split; congruence].
  split; [reflexivity |].
  rewrite !value_of_set_value; eauto using value_of_is_Some.
Qed.

Lemma set_value_set_value (self : loc) (r1 r2 : pyval) (w : world) :
  set_value self r2 (set_value self r1 w) = set_value self r2 w.
Proof.
  unfold set_value; simpl. f_equal.
  rewrite alter_alter_eq. apply alter_ext. intros o _. simpl.
  apply insert_insert_eq.
Qed.

Lemma is_integer_as_int (v : pyval) :
  is_integer v = true -> exists z, as_int v = Some z.
Proof. destruct v; try discriminate; simpl; eauto. Qed.

Lemma py_add_integers (v n : pyval) (a b : Z) :
  as_int v = Some a -> as_int n = Some b -> py_add v n = Ok (VInt (a + b)).
Proof. intros Ha Hb. unfold py_add, arith. rewrite Ha, Hb. reflexivity. Qed.

Lemma py_mul_integers (v n : pyval) (a b : Z) :
  as_int v = Some a -> as_int n = Some b -> py_mul v n = Ok (VInt (a * b)).
Proof. intros Ha Hb. unfold py_mul, arith. rewrite Ha, Hb. reflexivity. Qed.

(** Two [add] calls in a row on an integer value. *)
Lemma add_twice_integers (self : loc) (w : world) (v a b : pyval) (z x y : Z) :
  value_of self w = Some v ->
  as_int v = Some z -> as_int a = Some x -> as_int b = Some y ->
  (Calculator.add self a ;; Calculator.add self b) w
  = (Ok (VInt (z + x + y)), set_value self (VInt (z + x + y)) w).
Proof.
  intros Hv Hz Hx Hy. unfold mbind, M_bind, bind.
  rewrite add_run, Hv, (py_add_integers v a z x Hz Hx).
  rewrite add_run, value_of_set_value by eauto using value_of_is_Some.
  rewrite (py_add_integers (VInt (z + x)) b (z + x) y eq_refl Hy).
  rewrite set_value_set_value. reflexivity.
Qed.


Lemma float_of_int_zero : float_of_int 0 = Ok 0%float.
Proof. vm_compute. reflexivity. Qed.

(** ** Concrete runs *)

(** A statement about closed terms, settled by evaluation. *)
Ltac by_evaluation := repeat split; vm_compute; reflexivity.

Example run_demo (float_repr : float -> string) :
  run_script float_repr = (0, "Result: 10" ++ newline).
Proof. vm_compute. reflexivity. Qed.

Example multiply_int_by_str : py_mul (VInt 0) (VStr "abc") = Ok (VStr "").
Proof. reflexivity. Qed.

Example multiply_str_by_bool : py_mul (VStr "ab") (VBool true) = Ok (VStr "ab").
Proof. reflexivity. Qed.

Example add_bools : py_add (VBool true) (VBool true) = Ok (VInt 2).
Proof. reflexivity. Qed.

Example add_int_str : py_add (VInt 0) (VStr "abc") = Raise TypeError.
Proof. reflexivity. Qed.

Example add_big_int_float :
  py_add (VInt (10 ^ 400)) (VFloat 1) = Raise OverflowError.
Proof. vm_compute. reflexivity. Qed.

Example float_of_int_ties_to_even :
  float_of_int (2 ^ 53 + 1) = Ok 9007199254740992%float.
Proof. vm_compute. reflexivity. Qed.

Example float_of_int_largest :
  float_of_int (2 ^ 1024 - 2 ^ 970 - 1) = Ok 0x1.fffffffffffffp+1023%float
  /\ float_of_int (2 ^ 1024 - 2 ^ 970) = Raise OverflowError.
Proof. by_evaluation. Qed.

Example repeat_limits :
  str_repeat "abc" 2 = Ok "abcabc"
  /\ str_repeat "abc" (-3) = Ok ""
  /\ str_repeat "abc" (2 ^ 62) = Raise OverflowError
  /\ str_repeat "" (10 ^ 30) = Raise OverflowError.
Proof. by_evaluation. Qed.

Example multiply_float_by_str : py_mul (VFloat 0.5) (VStr "abc") = Raise TypeError.
Proof. reflexivity. Qed.

Example lines_of_two_prints :
  lines ("Hello World!" ++ newline ++ "Result: 10" ++ newline)
  = ["Hello World!"; "Result: 10"].
Proof. reflexivity. Qed.

(** ** The accumulator follows the fold *)

(** C1, as stated, fails on a sequence of two numeric arguments: after
    [add(10 ** 400)] the call [add(1.0)] raises [OverflowError], the value
    stays [10 ** 400], the fold of the first argument alone, and the fold
    of [+] over both arguments has no value for it to equal. *)
Lemma fold_has_no_value_after_big_int_and_float :
  exists (calc : loc) (w0 w1 : world),
    Calculator.new init_world = (Ok calc, w0)
    /\ forallb (fun o => is_numeric (arg_of o))
         [Add (VInt (10 ^ 400)); Add (VFloat 1)] = true
    /\ invoke_all calc [Add (VInt (10 ^ 400)); Add (VFloat 1)] w0
       = (Raise OverflowError, w1)
    /\ value_of calc w1 = Some (VInt (10 ^ 400))
    /\ fold_ops (VInt 0) [Add (VInt (10 ^ 400))] = Ok (VInt (10 ^ 400))
    /\ fold_ops (VInt 0) [Add (VInt (10 ^ 400)); Add (VFloat 1)]
       = Raise OverflowError
    /\ ~ (exists v, fold_ops (VInt 0) [Add (VInt (10 ^ 400)); Add (VFloat 1)] = Ok v
                    /\ value_of calc w1 = Some v).
Proof.
  exists 1%positive,
    (World {[ 1%positive := {[ "value" := VInt 0 ]} ]} ""),
    (World {[ 1%positive := {[ "value" := VInt (10 ^ 400) ]} ]} "").
  assert (Hf : fold_ops (VInt 0) [Add (VInt (10 ^ 400)); Add (VFloat 1)]
               = Raise OverflowError) by (vm_compute; reflexivity).
  repeat split; try (vm_compute; reflexivity).
  intros (v & Hv & _). rewrite Hf in Hv. discriminate Hv.
Qed.

(** C1, amended.  On a freshly constructed calculator the stored value is
    0, and for every sequence of operations and each of its prefixes: when
    the left-to-right fold of [+] and [*] over the prefix's arguments,
    starting from 0, has a value, the operations of the prefix all complete
    and the stored value is that fold; when an application of [+] or [*]
    in the fold raises, the run of the prefix raises the same exception.
    For integer arguments the fold is the fold over the integers, and every
    operation completes. *)
Theorem value_is_fold_of_operations (w : world) (ops : list op)
    (zs : list zop) (k : nat) :
  exists (calc : loc) (w0 : world),
    Calculator.new w = (Ok calc, w0)
    /\ value_of calc w0 = Some (VInt 0)
    /\ match fold_ops (VInt 0) (take k ops) with
       | Ok v => exists w', invoke_all calc (take k ops) w0 = (Ok tt, w')
                            /\ value_of calc w' = Some v
       | Raise e => exists w', invoke_all calc (take k ops) w0 = (Raise e, w')
       end
    /\ exists w', invoke_all calc (map op_of_zop (take k zs)) w0 = (Ok tt, w')
                  /\ value_of calc w' = Some (VInt (fold_left zapply (take k zs) 0)).
Proof.
  destruct (Calculator.new w) as [r w0] eqn:Hnew.
  pose proof (new_run w) as Hrun. simpl in Hrun. rewrite Hnew in Hrun.
  injection Hrun as -> Hw0.
  exists (fresh (dom (heap w))), w0.
  assert (Hv : value_of (fresh (dom (heap w))) w0 = Some (VInt 0))
    by (apply (new_value w); exact Hnew).
  split; [reflexivity |]. split; [exact Hv |]. split.
  - apply invoke_all_fold. exact Hv.
  - pose proof (invoke_all_fold (fresh (dom (heap w)))
                  (map op_of_zop (take k zs)) w0 (VInt 0) Hv) as H.
    rewrite fold_ops_integers in H. exact H.
Qed.

(** ** What [add] and [multiply] store and return *)

(** C2, as stated, fails: on the value [10 ** 400], reached by one [add],
    [add(1.0)] raises [OverflowError]; nothing is stored or returned. *)
Lemma add_big_int_then_float_raises :
  exists (calc : loc) (w0 w1 : world),
    Calculator.new init_world = (Ok calc, w0)
    /\ Calculator.add calc (VInt (10 ^ 400)) w0 = (Ok (VInt (10 ^ 400)), w1)
    /\ value_of calc w1 = Some (VInt (10 ^ 400))
    /\ is_numeric (VInt (10 ^ 400)) = true
    /\ is_numeric (VFloat 1) = true
    /\ Calculator.add calc (VFloat 1) w1 = (Raise OverflowError, w1).
Proof.
  exists 1%positive,
    (World {[ 1%positive := {[ "value" := VInt 0 ]} ]} ""),
    (World {[ 1%positive := {[ "value" := VInt (10 ^ 400) ]} ]} "").
  by_evaluation.
Qed.

(** C2, amended.  On a numeric stored value [v] and a numeric [n], [add(n)]
    stores [v + n] and returns it: the integer sum when both are integers
    ([bool] counting as 0 or 1), the double sum of the two operands taken as
    doubles otherwise; the one exception is an [int] too large for a double
    meeting a [float], where [OverflowError] is raised and the value stays. *)
Theorem add_updates_and_returns (self : loc) (w : world) (v n : pyval) :
  value_of self w = Some v ->
  is_numeric v = true ->
  is_numeric n = true ->
  match as_int v, as_int n with
  | Some a, Some b =>
      returns_and_stores self (Calculator.add self n) w (VInt (a + b))
  | _, _ =>
      match to_float v, to_float n with
      | Some (Ok x), Some (Ok y) =>
          returns_and_stores self (Calculator.add self n) w (VFloat (x + y))
      | _, _ => raises (Calculator.add self n) w OverflowError
      end
  end.
Proof.
  intros Hv Nv Nn. pose proof (add_numeric self w v n Hv Nv Nn) as H.
  unfold numeric_result in H.
  destruct (as_int v), (as_int n); try exact H;
    destruct (to_float v) as [[x|e]|]; try exact H;
    destruct (to_float n) as [[y|e']|]; exact H.
Qed.

Lemma add_updates_and_returns_witness :
  let w := World {[ 1%positive := {[ "value" := VInt 3 ]} ]} "" in
  value_of 1%positive w = Some (VInt 3)
  /\ returns_and_stores 1%positive (Calculator.add 1%positive (VInt 5)) w
       (VInt (3 + 5)).
Proof.
  split; [reflexivity |].
  exact (add_updates_and_returns 1%positive
           (World {[ 1%positive := {[ "value" := VInt 3 ]} ]} "")
           (VInt 3) (VInt 5) eq_refl eq_refl eq_refl).
Defined.

(** C3, as stated, fails: on the value [10 ** 400], reached by one [add],
    [multiply(0.5)] raises [OverflowError]; nothing is stored or returned. *)
Lemma multiply_big_int_by_float_raises :
  exists (calc : loc) (w0 w1 : world),
    Calculator.new init_world = (Ok calc, w0)
    /\ Calculator.add calc (VInt (10 ^ 400)) w0 = (Ok (VInt (10 ^ 400)), w1)
    /\ value_of calc w1 = Some (VInt (10 ^ 400))
    /\ is_numeric (VInt (10 ^ 400)) = true
    /\ is_numeric (VFloat 0.5) = true
    /\ Calculator.multiply calc (VFloat 0.5) w1 = (Raise OverflowError, w1).
Proof.
  exists 1%positive,
    (World {[ 1%positive := {[ "value" := VInt 0 ]} ]} ""),
    (World {[ 1%positive := {[ "value" := VInt (10 ^ 400) ]} ]} "").
  by_evaluation.
Qed.

(** C3, amended.  On a numeric stored value [v] and a numeric [n],
    [multiply(n)] stores [v * n] and returns it: the integer product when
    both are integers, the double product of the two operands taken as
    doubles otherwise; the one exception is an [int] too large for a double
    meeting a [float], where [OverflowError] is raised and the value stays. *)
Theorem multiply_updates_and_returns (self : loc) (w : world) (v n : pyval) :
  value_of self w = Some v ->
  is_numeric v = true ->
  is_numeric n = true ->
  match as_int v, as_int n with
  | Some a, Some b =>
      returns_and_stores self (Calculator.multiply self n) w (VInt (a * b))
  | _, _ =>
      match to_float v, to_float n with
      | Some (Ok x), Some (Ok y) =>
          returns_and_stores self (Calculator.multiply self n) w (VFloat (x * y))
      | _, _ => raises (Calculator.multiply self n) w OverflowError
      end
  end.
Proof.
  intros Hv Nv Nn. pose proof (multiply_numeric self w v n Hv Nv Nn) as H.
  unfold numeric_result in H.
  destruct (as_int v), (as_int n); try exact H;
    destruct (to_float v) as [[x|e]|]; try exact H;
    destruct (to_float n) as [[y|e']|]; exact H.
Qed.

Lemma multiply_updates_and_returns_witness :
  let w := World {[ 1%positive := {[ "value" := VInt 5 ]} ]} "" in
  value_of 1%positive w = Some (VInt 5)
  /\ returns_and_stores 1%positive (Calculator.multiply 1%positive (VInt 2)) w
       (VInt (5 * 2)).
Proof.
  split; [reflexivity |].
  exact (multiply_updates_and_returns 1%positive
           (World {[ 1%positive := {[ "value" := VInt 5 ]} ]} "")
           (VInt 5) (VInt 2) eq_refl eq_refl eq_refl).
Defined.

(** ** Which calls fail *)

(** C4, as stated, fails twice over.  On a fresh calculator
    [multiply("abc")] does not fail: it stores and returns the empty
    string.  And a numeric argument can fail: on [10 ** 400], [add(1.0)]
    raises [OverflowError]. *)
Lemma multiply_by_string_returns :
  exists (calc : loc) (w0 w1 : world),
    Calculator.new init_world = (Ok calc, w0)
    /\ is_numeric (VStr "abc") = false
    /\ Calculator.multiply calc (VStr "abc") w0
       = (Ok (VStr ""), set_value calc (VStr "") w0)
    /\ Calculator.add calc (VInt (10 ^ 400)) w0 = (Ok (VInt (10 ^ 400)), w1)
    /\ is_numeric (VFloat 1) = true
    /\ Calculator.add calc (VFloat 1) w1 = (Raise OverflowError, w1).
Proof.
  exists 1%positive,
    (World {[ 1%positive := {[ "value" := VInt 0 ]} ]} ""),
    (World {[ 1%positive := {[ "value" := VInt (10 ^ 400) ]} ]} "").
  by_evaluation.
Qed.

(** C4, amended.  On a numeric stored value: [add(n)] raises [TypeError]
    for [None] and for a string; [multiply(n)] raises [TypeError] for
    [None], and for a string when the stored value is a [float], but on an
    integer stored value a string is repeated, stored and returned
    ([OverflowError] when the count or the length does not fit an index).
    For a numeric [n] neither call raises [TypeError]: both fail, with
    [OverflowError], exactly when an [int] too large for a double meets a
    [float], and never on two integers.  A call that raises leaves the
    value and the output as they were, and nothing catches the exception:
    the statements after the call are skipped and the exit status is 1. *)
Theorem failures_of_operations (self : loc) (w : world) (v n : pyval) :
  value_of self w = Some v ->
  is_numeric v = true ->
  match n with
  | VNone =>
      raises (Calculator.add self n) w TypeError
      /\ raises (Calculator.multiply self n) w TypeError
  | VStr s =>
      raises (Calculator.add self n) w TypeError
      /\ match as_int v with
         | None => raises (Calculator.multiply self n) w TypeError
         | Some k =>
             match str_repeat s k with
             | Ok r => returns_and_stores self (Calculator.multiply self n) w (VStr r)
             | Raise _ => raises (Calculator.multiply self n) w OverflowError
             end
         end
  | _ =>
      if negb (is_integer v && is_integer n)
         && (int_too_large v || int_too_large n)
      then raises (Calculator.add self n) w OverflowError
           /\ raises (Calculator.multiply self n) w OverflowError
      else (exists r, is_numeric r = true
                      /\ returns_and_stores self (Calculator.add self n) w r)
           /\ (exists r, is_numeric r = true
                         /\ returns_and_stores self (Calculator.multiply self n) w r)
  end
  /\ forall (e : pyexc) (rest : pyval -> M unit),
       (raises (Calculator.add self n) w e ->
        raises (Calculator.add self n ≫= rest) w e
        /\ exit_status (fst ((Calculator.add self n ≫= rest) w)) = 1)
       /\ (raises (Calculator.multiply self n) w e ->
           raises (Calculator.multiply self n ≫= rest) w e
           /\ exit_status (fst ((Calculator.multiply self n ≫= rest) w)) = 1).
Proof.
  intros Hv Nv. split.
  - destruct (is_numeric n) eqn:Nn.
    + pose proof (add_numeric self w v n Hv Nv Nn) as Ha.
      pose proof (multiply_numeric self w v n Hv Nv Nn) as Hm.
      pose proof (numeric_result_cases Z.add PrimFloat.add v n Nv Nn) as Ca.
      pose proof (numeric_result_cases Z.mul PrimFloat.mul v n Nv Nn) as Cm.
      destruct n; try discriminate.
      all: destruct (negb (is_integer v && is_integer _)
                     && (int_too_large v || int_too_large _)).
      all: try (rewrite Ca in Ha; rewrite Cm in Hm; split; assumption).
      all: destruct Ca as (ra & Nra & Ea); destruct Cm as (rm & Nrm & Em);
        rewrite Ea in Ha; rewrite Em in Hm; split; eauto.
    + pose proof (add_run self n w) as Ha. pose proof (multiply_run self n w) as Hm.
      rewrite Hv in Ha, Hm.
      destruct n as [| | | | s]; try discriminate.
      * destruct v; try discriminate; split; assumption.
      * split; [destruct v; try discriminate; exact Ha |].
        destruct v as [| b | z | x |]; try discriminate; simpl.
        -- apply (call_outcome self _ w (VBool b) (result_bind (str_repeat s (Z.b2z b)) (fun r => Ok (VStr r)))) in Hm; [| exact Hv].
           destruct (str_repeat s (Z.b2z b)) eqn:E; [exact Hm |].
           apply str_repeat_raises in E. subst. exact Hm.
        -- apply (call_outcome self _ w (VInt z) (result_bind (str_repeat s z) (fun r => Ok (VStr r)))) in Hm; [| exact Hv].
           destruct (str_repeat s z) eqn:E; [exact Hm |].
           apply str_repeat_raises in E. subst. exact Hm.
        -- exact Hm.
  - intros e rest; split; intros Hr;
      (match type of Hr with
       | raises ?m _ _ => pose proof (raises_bind m rest w e Hr) as Hb
       end);
      (split; [exact Hb |]); rewrite Hb; reflexivity.
Qed.

Lemma failures_of_operations_witness :
  let w := World {[ 1%positive := {[ "value" := VInt 0 ]} ]} "" in
  value_of 1%positive w = Some (VInt 0)
  /\ is_numeric (VInt 0) = true
  /\ raises (Calculator.add 1%positive (VStr "abc")) w TypeError
  /\ returns_and_stores 1%positive (Calculator.multiply 1%positive (VStr "abc")) w
       (VStr "").
Proof.
  split; [reflexivity |]. split; [reflexivity |].
  exact (proj1 (failures_of_operations 1%positive
                  (World {[ 1%positive := {[ "value" := VInt 0 ]} ]} "")
                  (VInt 0) (VStr "abc") eq_refl eq_refl)).
Defined.

(** ** The greeter *)

(** C9.  Every call of [hello_world] appends the text [Hello World!] and a
    newline to standard output, once, changes nothing else, and returns
    the string [success]. *)
Theorem hello_world_prints_and_returns_success (w : world) :
  hello_world w
  = (Ok (VStr "success"), World (heap w) (stdout w ++ "Hello World!" ++ newline)).
Proof. reflexivity. Qed.

(** ** The reference run *)

(** C5.  The main flow constructs a calculator, [add(5)] returns 5,
    [multiply(2)] then returns 10, the final statement prints
    [Result: 10], and the process ends with status 0. *)
Theorem main_flow (float_repr : float -> string) :
  exists (calc : loc) (w0 w1 w2 w3 : world),
    Calculator.new init_world = (Ok calc, w0)
    /\ Calculator.add calc (VInt 5) w0 = (Ok (VInt 5), w1)
    /\ Calculator.multiply calc (VInt 2) w1 = (Ok (VInt 10), w2)
    /\ value_of calc w2 = Some (VInt 10)
    /\ (v ← getattr calc "value"; print ("Result: " ++ py_str float_repr v)) w2
       = (Ok tt, w3)
    /\ stdout w2 = ""
    /\ stdout w3 = "Result: 10" ++ newline
    /\ module float_repr "__main__" init_world = (Ok tt, w3)
    /\ run_script float_repr = (0, "Result: 10" ++ newline).
Proof.
  exists 1%positive,
    (World {[ 1%positive := {[ "value" := VInt 0 ]} ]} ""),
    (World {[ 1%positive := {[ "value" := VInt 5 ]} ]} ""),
    (World {[ 1%positive := {[ "value" := VInt 10 ]} ]} ""),
    (World {[ 1%positive := {[ "value" := VInt 10 ]} ]} ("Result: 10" ++ newline)).
  by_evaluation.
Qed.

(** C6, as stated, fails: the reference run never calls [hello_world], so
    one line is written, not two, and [Hello World!] is not among them. *)
Lemma reference_run_writes_one_line :
  lines (snd (run_script (fun _ => ""))) = ["Result: 10"]
  /\ length (lines (snd (run_script (fun _ => "")))) <> 2%nat
  /\ ~ In "Hello World!" (lines (snd (run_script (fun _ => "")))).
Proof.
  assert (E : lines (snd (run_script (fun _ => ""))) = ["Result: 10"])
    by (vm_compute; reflexivity).
  rewrite E. split; [reflexivity |]. split; [discriminate |].
  intros [H | []]. discriminate H.
Qed.

(** C6, amended.  The reference run writes exactly one line to standard
    output, [Result: <value>], where [<value>] is the decimal text of the
    calculator's final value, 10.  The line [Hello World!] comes first,
    making two lines, only in a run that calls [hello_world] before the
    main flow. *)
Theorem reference_run_output (float_repr : float -> string) :
  exists (calc : loc) (w : world),
    module float_repr "__main__" init_world = (Ok tt, w)
    /\ value_of calc w = Some (VInt 10)
    /\ snd (run_script float_repr) = stdout w
    /\ lines (stdout w) = ["Result: " ++ pretty 10]
    /\ lines (stdout (snd ((hello_world ;; module float_repr "__main__") init_world)))
       = ["Hello World!"; "Result: " ++ pretty 10].
Proof.
  exists 1%positive,
    (World {[ 1%positive := {[ "value" := VInt 10 ]} ]} ("Result: 10" ++ newline)).
  by_evaluation.
Qed.

(** ** What the operations leave alone *)

(** C10.  [add(n)] and [multiply(n)], for every [n], write nothing but the
    [value] attribute of the calculator they are called on and read nothing
    else: standard output, every other instance and every other attribute
    are as before, no instance or attribute appears or disappears, and the
    outcome depends on the stored value alone.  A calculator is created
    with [value] as its only attribute. *)
Theorem operations_touch_only_value (self : loc) (n : pyval) (w : world) :
  touches_only_value self (Calculator.add self n)
  /\ touches_only_value self (Calculator.multiply self n)
  /\ reads_only_value self (Calculator.add self n)
  /\ reads_only_value self (Calculator.multiply self n)
  /\ exists (calc : loc) (w0 : world),
       Calculator.new w = (Ok calc, w0)
       /\ heap w !! calc = None
       /\ heap w0 !! calc = Some {[ "value" := VInt 0 ]}
       /\ dom <$> heap w0 !! calc = Some {[ "value" ]}.
Proof.
  split; [| split; [| split; [| split]]].
  - apply touches_only_value_intro. intros w1. rewrite add_run.
    destruct (value_of self w1) as [v|]; [| left; reflexivity].
    destruct (py_add v n); [right; eauto | left; reflexivity].
  - apply touches_only_value_intro. intros w1. rewrite multiply_run.
    destruct (value_of self w1) as [v|]; [| left; reflexivity].
    destruct (py_mul v n); [right; eauto | left; reflexivity].
  - apply (reads_only_value_intro self _ (fun v => py_add v n)).
    intros w1. apply add_run.
  - apply (reads_only_value_intro self _ (fun v => py_mul v n)).
    intros w1. apply multiply_run.
  - eexists _, _. split; [apply new_run |]. simpl.
    split; [apply not_elem_of_dom, is_fresh |].
    rewrite lookup_insert_eq. split; [reflexivity |]. simpl.
    rewrite dom_singleton_L. reflexivity.
Qed.

(** ** Two algebraic properties *)

(** C7, as stated, fails on doubles, whose addition rounds: from the value
    [1e16], [add(1.0); add(-1e16)] leaves [0.0] and
    [add(-1e16); add(1.0)] leaves [1.0]. *)
Lemma add_order_matters_on_floats :
  exists (calc : loc) (w0 w1 wab wba : world),
    Calculator.new init_world = (Ok calc, w0)
    /\ Calculator.add calc (VFloat 1e16) w0 = (Ok (VFloat 1e16), w1)
    /\ (Calculator.add calc (VFloat 1) ;; Calculator.add calc (VFloat (-1e16))) w1
       = (Ok (VFloat 0), wab)
    /\ (Calculator.add calc (VFloat (-1e16)) ;; Calculator.add calc (VFloat 1)) w1
       = (Ok (VFloat 1), wba)
    /\ value_of calc wab = Some (VFloat 0)
    /\ value_of calc wba = Some (VFloat 1)
    /\ (0 =? 1)%float = false
    /\ VFloat 0 <> VFloat 1.
Proof.
  exists 1%positive,
    (World {[ 1%positive := {[ "value" := VInt 0 ]} ]} ""),
    (World {[ 1%positive := {[ "value" := VFloat 1e16 ]} ]} ""),
    (World {[ 1%positive := {[ "value" := VFloat 0 ]} ]} ""),
    (World {[ 1%positive := {[ "value" := VFloat 1 ]} ]} "").
  repeat split; try (vm_compute; reflexivity).
  intros H. apply (f_equal is_zero_value) in H. vm_compute in H. discriminate H.
Qed.

(** C7, amended.  On an integer stored value and for integers [a] and [b]
    ([bool] included), [add(a); add(b)] and [add(b); add(a)] return the
    same value and leave the same state. *)
Theorem add_commutes_on_integers (self : loc) (w : world) (v a b : pyval) :
  value_of self w = Some v ->
  is_integer v = true ->
  is_integer a = true ->
  is_integer b = true ->
  exists (r : Z) (w' : world),
    (Calculator.add self a ;; Calculator.add self b) w = (Ok (VInt r), w')
    /\ (Calculator.add self b ;; Calculator.add self a) w = (Ok (VInt r), w')
    /\ value_of self w' = Some (VInt r).
Proof.
  intros Hv Iv Ia Ib.
  destruct (is_integer_as_int v Iv) as [z Hz].
  destruct (is_integer_as_int a Ia) as [x Hx].
  destruct (is_integer_as_int b Ib) as [y Hy].
  exists (z + x + y), (set_value self (VInt (z + x + y)) w).
  split; [| split].
  - apply (add_twice_integers self w v a b); assumption.
  - rewrite (add_twice_integers self w v b a z y x) by assumption.
    replace (z + y + x) with (z + x + y) by lia. reflexivity.
  - apply value_of_set_value. eauto using value_of_is_Some.
Qed.

Lemma add_commutes_on_integers_witness :
  let w := World {[ 1%positive := {[ "value" := VInt 7 ]} ]} "" in
  value_of 1%positive w = Some (VInt 7)
  /\ exists (r : Z) (w' : world),
       (Calculator.add 1%positive (VInt 2) ;; Calculator.add 1%positive (VBool true)) w
       = (Ok (VInt r), w')
       /\ (Calculator.add 1%positive (VBool true) ;; Calculator.add 1%positive (VInt 2)) w
          = (Ok (VInt r), w')
       /\ value_of 1%positive w' = Some (VInt r).
Proof.
  split; [reflexivity |].
  exact (add_commutes_on_integers 1%positive
           (World {[ 1%positive := {[ "value" := VInt 7 ]} ]} "")
           (VInt 7) (VInt 2) (VBool true) eq_refl eq_refl eq_refl eq_refl).
Defined.




(** ** Further properties of the script *)

Lemma set_value_same (self : loc) (v : pyval) (w : world) :
  value_of self w = Some v -> set_value self v w = w.
Proof.
  intros Hv. destruct w as [h out]. unfold set_value, value_of in *. simpl in *.
  f_equal. destruct (h !! self) as [o|] eqn:Ho; [| discriminate].
  simpl in Hv. apply map_eq. intros l.
  destruct (decide (l = self)) as [-> | Hne].
  - rewrite lookup_alter_eq, Ho. simpl. f_equal. apply insert_id. exact Hv.
  - rewrite lookup_alter_ne by congruence. reflexivity.
Qed.

Lemma bind_returns {A B} (m : M A) (k : A -> M B) (w : world) (a : A)
    (w' : world) :
  m w = (Ok a, w') -> (m ≫= k) w = k a w'.
Proof. unfold mbind, M_bind, bind. intros ->. reflexivity. Qed.



(** X1.  Loaded under any name but [__main__] the module body does
    nothing.  Run as [__main__] from any state of the interpreter it ends
    without exception, adds one instance, which holds 10, leaves the
    instances that were there as they were, and appends the one line
    [Result: 10] to what was already written. *)
Theorem module_from_any_world (float_repr : float -> string) (w : world)
    (name : string) :
  (name <> "__main__" -> module float_repr name w = (Ok tt, w))
  /\ exists calc : loc,
       heap w !! calc = None
       /\ module float_repr "__main__" w
          = (Ok tt, World (<[calc := {[ "value" := VInt 10 ]}]> (heap w))
                          (stdout w ++ "Result: 10" ++ newline)).
Proof.
  split.
  - intros Hn. unfold module. destruct (decide (name = "__main__")); [contradiction | reflexivity].
  - exists (fresh (dom (heap w))). split; [apply not_elem_of_dom, is_fresh |].
    unfold module, main. simpl.
    set (l := fresh (dom (heap w))).
    set (w0 := World (<[l := {[ "value" := VInt 0 ]}]> (heap w)) (stdout w)).
    assert (H0 : value_of l w0 = Some (VInt 0))
      by (unfold value_of, w0; simpl; rewrite lookup_insert_eq; reflexivity).
    assert (H5 : value_of l (set_value l (VInt 5) w0) = Some (VInt 5))
      by (apply value_of_set_value; eauto using value_of_is_Some).
    assert (H10 : value_of l (set_value l (VInt 10) w0) = Some (VInt 10))
      by (apply value_of_set_value; eauto using value_of_is_Some).
    rewrite (bind_returns _ _ w l w0) by apply new_run.
    rewrite (bind_returns _ _ w0 (VInt 5) (set_value l (VInt 5) w0))
      by (rewrite add_run, H0; reflexivity).
    rewrite (bind_returns _ _ _ (VInt 10) (set_value l (VInt 10) w0))
      by (rewrite multiply_run, H5,
            (py_mul_integers (VInt 5) (VInt 2) 5 2 eq_refl eq_refl),
            set_value_set_value; reflexivity).
    rewrite (bind_returns _ _ _ (VInt 10) (set_value l (VInt 10) w0))
      by (unfold getattr; fold (value_of l (set_value l (VInt 10) w0));
          rewrite H10; reflexivity).
    unfold print, set_value, w0. simpl.
    rewrite alter_insert_eq, insert_singleton_eq. reflexivity.
Qed.



(** X4.  On an instance that has no [value] attribute both methods raise
    [AttributeError], whatever the argument, and change nothing.  Running
    [__init__] on the instance again sets [value] to 0 and keeps its other
    attributes; after that [add(n)] behaves as on a new calculator. *)
Theorem missing_value_attribute (self : loc) (n : pyval) (w : world) (o : obj) :
  heap w !! self = Some o ->
  o !! "value" = None ->
  raises (Calculator.add self n) w AttributeError
  /\ raises (Calculator.multiply self n) w AttributeError
  /\ exists w0 : world,
       Calculator.__init__ self w = (Ok tt, w0)
       /\ heap w0 !! self = Some (<[ "value" := VInt 0 ]> o)
       /\ (forall a : string, a <> "value" ->
             heap w0 !! self ≫= (.!! a) = o !! a)
       /\ Calculator.add self n w0
          = match py_add (VInt 0) n with
            | Ok r => (Ok r, set_value self r w0)
            | Raise e => (Raise e, w0)
            end.
Proof.
  intros Ho Hv.
  assert (Hn : value_of self w = None) by (unfold value_of; rewrite Ho; exact Hv).
  split; [| split].
  - unfold raises. rewrite add_run, Hn. reflexivity.
  - unfold raises. rewrite multiply_run, Hn. reflexivity.
  - eexists. split; [reflexivity |]. simpl.
    rewrite lookup_alter_eq, Ho. simpl. split; [reflexivity |]. split.
    + intros a Ha. apply lookup_insert_ne. congruence.
    + rewrite add_run. unfold value_of at 1. simpl.
      rewrite lookup_alter_eq, Ho. simpl. rewrite lookup_insert_eq. reflexivity.
Qed.

Lemma missing_value_attribute_witness :
  let w := World {[ 1%positive := {[ "unit" := VStr "km" ]} ]} "" in
  heap w !! 1%positive = Some {[ "unit" := VStr "km" ]}
  /\ raises (Calculator.add 1%positive (VInt 5)) w AttributeError.
Proof.
  split; [reflexivity |].
  exact (proj1 (missing_value_attribute 1%positive (VInt 5)
                  (World {[ 1%positive := {[ "unit" := VStr "km" ]} ]} "")
                  {[ "unit" := VStr "km" ]} eq_refl eq_refl)).
Defined.

(** *** Kinds of values along a run *)

Lemma apply_op_kind (v r : pyval) (o : op) :
  is_numeric v = true ->
  is_numeric (arg_of o) = true ->
  apply_op v o = Ok r ->
  is_numeric r = true
  /\ is_bool r = false
  /\ is_float r = is_float v || is_float (arg_of o).
Proof.
  intros Nv Nn. destruct o as [n | n]; simpl in *; unfold py_add, py_mul;
    rewrite (arith_numeric _ _ v n Nv Nn); unfold numeric_result;
    destruct v, n; try discriminate; simpl;
    try (intros [= <-]; repeat split; reflexivity);
    match goal with
    | |- context [float_of_int ?z] => destruct (float_of_int z)
    end;
    try discriminate; intros [= <-]; repeat split; reflexivity.
Qed.

(** X5.  Numbers in, numbers out: on a numeric stored value, after any
    sequence of calls with numeric arguments that has run to its end, the
    stored value is an [int] or a [float] (never a [bool], once a call was
    made), and it is a [float] exactly when the value at the start or one
    of the arguments was: a float never turns back into an integer. *)
Theorem numeric_runs_stay_numeric (self : loc) (ops : list op) :
  forall (w w' : world) (v : pyval),
    value_of self w = Some v ->
    is_numeric v = true ->
    forallb (fun o => is_numeric (arg_of o)) ops = true ->
    invoke_all self ops w = (Ok tt, w') ->
    exists v' : pyval,
      value_of self w' = Some v'
      /\ is_numeric v' = true
      /\ is_float v' = is_float v || existsb (fun o => is_float (arg_of o)) ops
      /\ (ops <> [] -> is_bool v' = false).
Proof.
  induction ops as [| o ops IH]; intros w w' v Hv Nv Hargs Hrun; simpl in *.
  - injection Hrun as <-. exists v. rewrite orb_false_r.
    repeat split; try assumption. congruence.
  - apply andb_true_iff in Hargs as [Ho Hargs].
    unfold mbind, M_bind, bind in Hrun. rewrite invoke_run, Hv in Hrun.
    destruct (apply_op v o) as [r|e] eqn:Er; [| discriminate].
    destruct (apply_op_kind v r o Nv Ho Er) as (Nr & Br & Fr).
    assert (Hr : value_of self (set_value self r w) = Some r)
      by (apply value_of_set_value; eauto using value_of_is_Some).
    destruct (IH _ _ r Hr Nr Hargs Hrun) as (v' & Hv' & Nv' & Fv' & Bv').
    exists v'. split; [exact Hv' |]. split; [exact Nv' |]. split.
    + rewrite Fv', Fr, orb_assoc. reflexivity.
    + intros _. destruct ops as [| o' ops'].
      * simpl in Hrun. injection Hrun as <-. rewrite Hr in Hv'.
        injection Hv' as <-. exact Br.
      * apply Bv'. discriminate.
Qed.

Lemma numeric_runs_stay_numeric_witness :
  let w := World {[ 1%positive := {[ "value" := VInt 0 ]} ]} "" in
  let w' := World {[ 1%positive := {[ "value" := VFloat 3 ]} ]} "" in
  invoke_all 1%positive [Add (VBool true); Multiply (VFloat 1.5); Add (VInt 1);
                         Add (VFloat 0.5)] w = (Ok tt, w')
  /\ exists v' : pyval,
       value_of 1%positive w' = Some v'
       /\ is_numeric v' = true
       /\ is_float v' = true
       /\ ([Add (VBool true); Multiply (VFloat 1.5); Add (VInt 1); Add (VFloat 0.5)]
           <> [] -> is_bool v' = false).
Proof.
  assert (Hrun : invoke_all 1%positive
                   [Add (VBool true); Multiply (VFloat 1.5); Add (VInt 1);
                    Add (VFloat 0.5)]
                   (World {[ 1%positive := {[ "value" := VInt 0 ]} ]} "")
                 = (Ok tt, World {[ 1%positive := {[ "value" := VFloat 3 ]} ]} ""))
    by (vm_compute; reflexivity).
  split; [exact Hrun |].
  exact (numeric_runs_stay_numeric 1%positive
           [Add (VBool true); Multiply (VFloat 1.5); Add (VInt 1); Add (VFloat 0.5)]
           (World {[ 1%positive := {[ "value" := VInt 0 ]} ]} "")
           (World {[ 1%positive := {[ "value" := VFloat 3 ]} ]} "")
           (VInt 0) eq_refl eq_refl eq_refl Hrun).
Defined.

(** *** Integer runs *)

Lemma invoke_all_integers (self : loc) (zs : list zop) :
  forall (w : world) (z : Z),
    value_of self w = Some (VInt z) ->
    invoke_all self (map op_of_zop zs) w
    = (Ok tt, set_value self (VInt (fold_left zapply zs z)) w).
Proof.
  induction zs as [| o zs IH]; intros w z Hv; simpl.
  - rewrite set_value_same by exact Hv. reflexivity.
  - assert (Ho : invoke self (op_of_zop o) w
                 = (Ok (VInt (zapply z o)), set_value self (VInt (zapply z o)) w))
      by (rewrite invoke_run, Hv; destruct o; reflexivity).
    rewrite (bind_returns _ _ _ _ _ Ho).
    rewrite (IH _ (zapply z o))
      by (apply value_of_set_value; eauto using value_of_is_Some).
    rewrite set_value_set_value. reflexivity.
Qed.

Lemma adds_fold (zs : list Z) :
  forall z : Z, fold_left zapply (map ZAdd zs) z = z + sum_of zs.
Proof.
  induction zs as [| a zs IH]; intros z; simpl; [lia |]. rewrite IH. lia.
Qed.

Lemma multiplies_fold (zs : list Z) :
  forall z : Z, fold_left zapply (map ZMultiply zs) z = z * product_of zs.
Proof.
  induction zs as [| a zs IH]; intros z; simpl; [lia |]. rewrite IH. lia.
Qed.

Lemma sum_of_permutation (zs zs' : list Z) :
  Permutation zs zs' -> sum_of zs = sum_of zs'.
Proof. induction 1; simpl; lia. Qed.

Lemma product_of_permutation (zs zs' : list Z) :
  Permutation zs zs' -> product_of zs = product_of zs'.
Proof. induction 1; simpl; lia. Qed.

Lemma adds_run (self : loc) (zs : list Z) (w : world) (z : Z) :
  value_of self w = Some (VInt z) ->
  invoke_all self (adds zs) w = (Ok tt, set_value self (VInt (z + sum_of zs)) w).
Proof.
  intros Hv. unfold adds.
  replace (map (fun a => Add (VInt a)) zs) with (map op_of_zop (map ZAdd zs))
    by (rewrite map_map; reflexivity).
  rewrite (invoke_all_integers self _ w z Hv), adds_fold. reflexivity.
Qed.

Lemma multiplies_run (self : loc) (zs : list Z) (w : world) (z : Z) :
  value_of self w = Some (VInt z) ->
  invoke_all self (multiplies zs) w
  = (Ok tt, set_value self (VInt (z * product_of zs)) w).
Proof.
  intros Hv. unfold multiplies.
  replace (map (fun a => Multiply (VInt a)) zs)
    with (map op_of_zop (map ZMultiply zs)) by (rewrite map_map; reflexivity).
  rewrite (invoke_all_integers self _ w z Hv), multiplies_fold. reflexivity.
Qed.

(** X6.  On an integer stored value [z], any number of [add] calls with
    integer arguments leaves [z] plus their sum, and any number of
    [multiply] calls leaves [z] times their product, so that the order of
    the calls does not matter: every rearrangement of the arguments ends
    in the same state. *)
Theorem integer_calls_in_any_order (self : loc) (w : world) (z : Z)
    (zs zs' : list Z) :
  value_of self w = Some (VInt z) ->
  Permutation zs zs' ->
  invoke_all self (adds zs) w = (Ok tt, set_value self (VInt (z + sum_of zs)) w)
  /\ invoke_all self (adds zs') w = invoke_all self (adds zs) w
  /\ invoke_all self (multiplies zs) w
     = (Ok tt, set_value self (VInt (z * product_of zs)) w)
  /\ invoke_all self (multiplies zs') w = invoke_all self (multiplies zs) w.
Proof.
  intros Hv Hp. repeat split.
  - apply adds_run, Hv.
  - rewrite !(adds_run self _ w z Hv), (sum_of_permutation zs zs' Hp). reflexivity.
  - apply multiplies_run, Hv.
  - rewrite !(multiplies_run self _ w z Hv), (product_of_permutation zs zs' Hp).
    reflexivity.
Qed.

Lemma integer_calls_in_any_order_witness :
  let w := World {[ 1%positive := {[ "value" := VInt 2 ]} ]} "" in
  value_of 1%positive w = Some (VInt 2)
  /\ invoke_all 1%positive (adds [3; 4; 5]) w
     = (Ok tt, set_value 1%positive (VInt (2 + sum_of [5; 3; 4])) w)
  /\ invoke_all 1%positive (adds [3; 4; 5]) w = invoke_all 1%positive (adds [5; 3; 4]) w.
Proof.
  split; [reflexivity |].
  pose (H := integer_calls_in_any_order 1%positive
               (World {[ 1%positive := {[ "value" := VInt 2 ]} ]} "") 2
               [5; 3; 4] [3; 4; 5] eq_refl
               (perm_trans (perm_swap 3 5 [4])
                  (perm_skip 3 (perm_swap 4 5 [])))).
  split; [rewrite (proj1 (proj2 H)); exact (proj1 H) | exact (proj1 (proj2 H))].
Defined.

(** X7.  On an integer stored value the calls compose as the arithmetic
    does: [add(a); add(b)] is [add(a + b)], [multiply(a); multiply(b)] is
    [multiply(a * b)], [add(a); multiply(b)] is [multiply(b); add(a * b)],
    and [add(a); add(-a)] gives back the value and the state it started
    from. *)
Theorem integer_calls_compose (self : loc) (w : world) (z a b : Z) :
  value_of self w = Some (VInt z) ->
  (Calculator.add self (VInt a) ;; Calculator.add self (VInt b)) w
  = Calculator.add self (VInt (a + b)) w
  /\ (Calculator.multiply self (VInt a) ;; Calculator.multiply self (VInt b)) w
     = Calculator.multiply self (VInt (a * b)) w
  /\ (Calculator.add self (VInt a) ;; Calculator.multiply self (VInt b)) w
     = (Calculator.multiply self (VInt b) ;; Calculator.add self (VInt (a * b))) w
  /\ (Calculator.add self (VInt a) ;; Calculator.add self (VInt (- a))) w
     = (Ok (VInt z), w).
Proof.
  intros Hv.
  assert (Hs : forall r, value_of self (set_value self (VInt r) w) = Some (VInt r))
    by (intros r; apply value_of_set_value; eauto using value_of_is_Some).
  assert (Ha : forall x, Calculator.add self (VInt x) w
                         = (Ok (VInt (z + x)), set_value self (VInt (z + x)) w))
    by (intros x; rewrite add_run, Hv; reflexivity).
  assert (Hm : forall x, Calculator.multiply self (VInt x) w
                         = (Ok (VInt (z * x)), set_value self (VInt (z * x)) w))
    by (intros x; rewrite multiply_run, Hv; reflexivity).
  assert (Ha' : forall r x, Calculator.add self (VInt x) (set_value self (VInt r) w)
                            = (Ok (VInt (r + x)), set_value self (VInt (r + x)) w))
    by (intros r x;
        rewrite add_run, Hs, (py_add_integers (VInt r) (VInt x) r x eq_refl eq_refl),
          set_value_set_value; reflexivity).
  assert (Hm' : forall r x, Calculator.multiply self (VInt x) (set_value self (VInt r) w)
                            = (Ok (VInt (r * x)), set_value self (VInt (r * x)) w))
    by (intros r x;
        rewrite multiply_run, Hs,
          (py_mul_integers (VInt r) (VInt x) r x eq_refl eq_refl),
          set_value_set_value; reflexivity).
  repeat split.
  - rewrite (bind_returns _ _ _ _ _ (Ha a)), Ha', Ha.
    replace (z + a + b) with (z + (a + b)) by lia. reflexivity.
  - rewrite (bind_returns _ _ _ _ _ (Hm a)), Hm', Hm.
    replace (z * a * b) with (z * (a * b)) by lia. reflexivity.
  - rewrite (bind_returns _ _ _ _ _ (Ha a)), (bind_returns _ _ _ _ _ (Hm b)), Hm', Ha'.
    replace ((z + a) * b) with (z * b + a * b) by lia. reflexivity.
  - rewrite (bind_returns _ _ _ _ _ (Ha a)), Ha'.
    replace (z + a + - a) with z by lia.
    rewrite set_value_same by exact Hv. reflexivity.
Qed.

Lemma integer_calls_compose_witness :
  let w := World {[ 1%positive := {[ "value" := VInt 7 ]} ]} "" in
  value_of 1%positive w = Some (VInt 7)
  /\ (Calculator.add 1%positive (VInt 5) ;; Calculator.add 1%positive (VInt (- 5))) w
     = (Ok (VInt 7), w).
Proof.
  split; [reflexivity |].
  exact (proj2 (proj2 (proj2 (integer_calls_compose 1%positive
           (World {[ 1%positive := {[ "value" := VInt 7 ]} ]} "") 7 5 2 eq_refl)))).
Defined.

(** *** Doubles on a new calculator *)

Lemma SFadd_comm (x y : spec_float) : SF64add x y = SF64add y x.
Proof.
  unfold SF64add, SFadd.
  destruct x as [[] | [] | | sx mx ex], y as [[] | [] | | sy my ey];
    try reflexivity.
  rewrite (Z.min_comm ey ex), Z.add_comm. reflexivity.
Qed.

(** Adding to [0.0]: the operand itself, except that [-0.0] becomes [0.0]. *)
Lemma SFadd_zero_l (x : spec_float) :
  SF64add (S754_zero false) x
  = match x with
    | S754_zero _ => S754_zero false
    | _ => x
    end.
Proof. destruct x as [[] | | |]; reflexivity. Qed.

Lemma SFadd_from_zero (x y : spec_float) :
  SF64add (SF64add (S754_zero false) x) y = SF64add (SF64add (S754_zero false) y) x.
Proof.
  rewrite !SFadd_zero_l.
  destruct x as [[] | [] | | sx mx ex], y as [[] | [] | | sy my ey];
    try reflexivity.
  apply SFadd_comm.
Qed.

Lemma float_adds_from_zero (a b : float) :
  (0 + a + b = 0 + b + a)%float.
Proof.
  assert (Hz : Prim2SF 0 = S754_zero false) by (vm_compute; reflexivity).
  apply Prim2SF_inj. rewrite !FloatAxioms.add_spec, Hz.
  apply SFadd_from_zero.
Qed.

(** X8.  On a new calculator two [add] calls with [float] arguments can be
    swapped: both orders return the same double and end in the same state,
    for all doubles, infinities and [nan] included. *)
Theorem float_adds_commute_on_new_calculator (w : world) (a b : float) :
  exists (calc : loc) (w0 w' : world) (r : float),
    Calculator.new w = (Ok calc, w0)
    /\ (Calculator.add calc (VFloat a) ;; Calculator.add calc (VFloat b)) w0
       = (Ok (VFloat r), w')
    /\ (Calculator.add calc (VFloat b) ;; Calculator.add calc (VFloat a)) w0
       = (Ok (VFloat r), w')
    /\ value_of calc w' = Some (VFloat r).
Proof.
  destruct (Calculator.new w) as [res w0] eqn:Hnew.
  pose proof (new_run w) as Hrun. simpl in Hrun. rewrite Hnew in Hrun.
  injection Hrun as -> Hw0.
  set (calc := fresh (dom (heap w))) in *.
  assert (H0 : value_of calc w0 = Some (VInt 0)) by (apply (new_value w); exact Hnew).
  assert (Hs : forall r, value_of calc (set_value calc r w0) = Some r)
    by (intros r; apply value_of_set_value; eauto using value_of_is_Some).
  assert (H1 : forall x, py_add (VInt 0) (VFloat x) = Ok (VFloat (0 + x)))
    by (intros x; unfold py_add, arith; cbn [as_int to_float option_map];
        rewrite float_of_int_zero; reflexivity).
  assert (Hfirst : forall x, Calculator.add calc (VFloat x) w0
             = (Ok (VFloat (0 + x)), set_value calc (VFloat (0 + x)) w0))
    by (intros x; rewrite add_run, H0, H1; reflexivity).
  assert (Hsecond : forall x y,
             Calculator.add calc (VFloat y) (set_value calc (VFloat x) w0)
             = (Ok (VFloat (x + y)), set_value calc (VFloat (x + y)) w0))
    by (intros x y; rewrite add_run, Hs;
        change (py_add (VFloat x) (VFloat y)) with (Ok (VFloat (x + y)));
        cbv beta iota; rewrite set_value_set_value; reflexivity).
  exists calc, w0, (set_value calc (VFloat (0 + a + b)) w0), (0 + a + b)%float.
  split; [reflexivity |]. split; [| split].
  - rewrite (bind_returns _ _ _ _ _ (Hfirst a)). apply Hsecond.
  - rewrite (bind_returns _ _ _ _ _ (Hfirst b)), Hsecond, float_adds_from_zero.
    reflexivity.
  - apply Hs.
Qed.

(** *** A string in the calculator *)



(** *** The greeter and the calculators *)

Lemma string_append_nil (s : string) : s ++ "" = s.
Proof.
  induction s as [| c s IH]; [reflexivity |].
  change (String c (s ++ "") = String c s). rewrite IH. reflexivity.
Qed.

Lemma string_append_assoc (s t u : string) : (s ++ t) ++ u = s ++ (t ++ u).
Proof.
  induction s as [| c s IH]; [reflexivity |].
  change (String c ((s ++ t) ++ u) = String c (s ++ (t ++ u))).
  rewrite IH. reflexivity.
Qed.

Lemma greet_times_run (k : nat) :
  forall w : world,
    greet_times k w
    = (Ok tt, World (heap w)
                (stdout w ++ repeat_string k ("Hello World!" ++ newline))).
Proof.
  induction k as [| k IH]; intros w.
  - destruct w as [h out]. unfold greet_times, ret. cbn [heap stdout repeat_string].
    rewrite (string_append_nil out). reflexivity.
  - change (greet_times (S k)) with (hello_world ;; greet_times k).
    rewrite (bind_returns _ _ w (VStr "success")
               (World (heap w) (stdout w ++ "Hello World!" ++ newline)))
      by reflexivity.
    rewrite IH. simpl heap. simpl stdout.
    change (repeat_string (S k) ("Hello World!" ++ newline))
      with (("Hello World!" ++ newline) ++ repeat_string k ("Hello World!" ++ newline)).
    rewrite (string_append_assoc (stdout w) ("Hello World!" ++ newline)).
    reflexivity.
Qed.

Lemma lines_of_greetings (k : nat) :
  lines (repeat_string k ("Hello World!" ++ newline)) = replicate k "Hello World!".
Proof.
  unfold lines. induction k as [| k IH]; [reflexivity |].
  change (lines_from "" (repeat_string (S k) ("Hello World!" ++ newline)))
    with ("Hello World!" :: lines_from "" (repeat_string k ("Hello World!" ++ newline))).
  rewrite IH. reflexivity.
Qed.

(** X10.  [k] calls of [hello_world] write [k] lines [Hello World!] and
    nothing else, and leave every calculator as it is: after them [add] and
    [multiply] return, or raise, exactly what they would have before. *)
Theorem greetings_leave_calculators_alone (k : nat) (self : loc) (n : pyval)
    (w : world) :
  exists w' : world,
    greet_times k w = (Ok tt, w')
    /\ heap w' = heap w
    /\ stdout w' = stdout w ++ repeat_string k ("Hello World!" ++ newline)
    /\ lines (repeat_string k ("Hello World!" ++ newline)) = replicate k "Hello World!"
    /\ fst (Calculator.add self n w') = fst (Calculator.add self n w)
    /\ fst (Calculator.multiply self n w') = fst (Calculator.multiply self n w).
Proof.
  eexists. split; [apply greet_times_run |]. simpl.
  split; [reflexivity |]. split; [reflexivity |].
  split; [apply lines_of_greetings |].
  rewrite !add_run, !multiply_run. unfold value_of. simpl.
  destruct (heap w !! self ≫= (.!! "value")) as [v|]; [| split; reflexivity].
  split; [destruct (py_add v n) | destruct (py_mul v n)]; reflexivity.
Qed.

(** *** Zero times a double that is not finite *)

Lemma SFeqb_refl (x : spec_float) : x <> S754_nan -> SFeqb x x = true.
Proof.
  destruct x as [[] | [] | | [] m e]; intros H; try reflexivity;
    try (contradiction H; reflexivity);
    unfold SFeqb, SFcompare; rewrite Z.compare_refl;
    fold (Pos.compare m m); rewrite Pos.compare_refl; reflexivity.
Qed.

Lemma nonfinite_times_zero (x : float) :
  is_finite x = false -> (x * 0)%float = nan.
Proof.
  assert (Hz : Prim2SF 0 = S754_zero false) by (vm_compute; reflexivity).
  assert (Hi : Prim2SF infinity = S754_infinity false) by (vm_compute; reflexivity).
  assert (Hn : Prim2SF nan = S754_nan) by (vm_compute; reflexivity).
  intros H. apply Prim2SF_inj. rewrite FloatAxioms.mul_spec, Hz, Hn.
  unfold is_finite, is_nan, is_infinity in H.
  rewrite !FloatAxioms.eqb_spec, FloatAxioms.abs_spec, Hi in H.
  destruct (Prim2SF x) as [s | s | | s m e] eqn:E; try reflexivity.
  - rewrite SFeqb_refl in H by discriminate. destruct s; discriminate H.
  - rewrite SFeqb_refl in H by discriminate. discriminate H.
Qed.

(** X11.  On a [float] stored value that is not finite ([inf], [-inf] or
    [nan]), [multiply(0)] stores and returns [nan]. *)
Theorem multiply_nonfinite_by_zero (self : loc) (w : world) (x : float) :
  value_of self w = Some (VFloat x) ->
  is_finite x = false ->
  returns_and_stores self (Calculator.multiply self (VInt 0)) w (VFloat nan).
Proof.
  intros Hv Hx.
  apply (call_outcome self _ w (VFloat x) (Ok (VFloat nan))); [exact Hv |].
  rewrite multiply_run, Hv. unfold py_mul, arith.
  cbn [as_int to_float option_map]. rewrite float_of_int_zero.
  cbn [result_bind]. rewrite (nonfinite_times_zero x Hx). reflexivity.
Qed.

Lemma multiply_nonfinite_by_zero_witness :
  let w := World {[ 1%positive := {[ "value" := VFloat neg_infinity ]} ]} "" in
  value_of 1%positive w = Some (VFloat neg_infinity)
  /\ is_finite neg_infinity = false
  /\ returns_and_stores 1%positive (Calculator.multiply 1%positive (VInt 0)) w
       (VFloat nan).
Proof.
  split; [reflexivity |]. split; [reflexivity |].
  exact (multiply_nonfinite_by_zero 1%positive
           (World {[ 1%positive := {[ "value" := VFloat neg_infinity ]} ]} "")
           neg_infinity eq_refl eq_refl).
Defined.
